(** * Transactional flows of the user controller

    A shallow embedding of [deleteUserById] and [checkInToEvent] from
    [src/app/controllers/user.controller.js], together with the storage
    operations they call.  The asynchronous JavaScript code is written in a
    small state-and-exception monad over a [World] that holds the database
    rows, the table of transactions, the operations that were started but not
    awaited, the promise returned to the caller and the log of effects in the
    order in which they happen. *)

From Stdlib Require Import ZArith List String Bool Lia.
Import ListNotations.
Local Open Scope Z_scope.

(** ** Rows *)

(** The fields the controller reads: [where: { id }], [user.email],
    [event.name]. *)
Module User.
Record t := mk { id : Z; email : string }.
End User.

Module Event.
Record t := mk { id : Z; name : string }.
End Event.

(** [models/token]: [user_id] references [users.id], [onDelete: 'CASCADE']. *)
Module Token.
Record t := mk { user_id : Z; value : string }.
End Token.

(** [migrations/...-create-talk.js]: [speaker_id] references [users.id],
    [onDelete: 'CASCADE']. *)
Module Talk.
Record t := mk { speaker_id : Z; name : string; description : string }.
End Talk.

(** Modelled from the spec: the model file of applications is not among
    the sources; the spec says that a user "owns zero-or-one Application" and
    counts applications among the rows that go with the user. *)
Module Application.
Record t := mk { user_id : Z }.
End Application.

(** The row written by [models.CheckIn.create({event_id, user_id})]. *)
Module CheckIn.
Record t := mk { event_id : Z; user_id : Z }.
End CheckIn.

Record Store := mkStore {
  users : list User.t;
  events : list Event.t;
  tokens : list Token.t;
  applications : list Application.t;
  talks : list Talk.t;
  check_ins : list CheckIn.t
}.

(** ** Writes and transactions *)

Inductive Write :=
| InsertCheckIn (row : CheckIn.t)
| DeleteUser (id : Z).

Definition keep {A : Type} (key : A -> Z) (id : Z) (rows : list A) : list A :=
  filter (fun r => negb (key r =? id)) rows.

(** Modelled from the spec: the model and migration files of the
    [applications] and [check_ins] tables are not among the sources; the spec
    says that a force-delete of a user cascades "to dependents per foreign-key
    ON DELETE CASCADE" and names tokens, applications, talks and check-ins as
    the cascade-linked rows.  The [tokens] and [talks] keys are those of the
    sources ([user_id], [speaker_id]). *)
Definition delete_user_cascade (id : Z) (s : Store) : Store :=
  {| users := keep User.id id (users s);
     events := events s;
     tokens := keep Token.user_id id (tokens s);
     applications := keep Application.user_id id (applications s);
     talks := keep Talk.speaker_id id (talks s);
     check_ins := keep CheckIn.user_id id (check_ins s) |}.

Definition insert_check_in (row : CheckIn.t) (s : Store) : Store :=
  {| users := users s;
     events := events s;
     tokens := tokens s;
     applications := applications s;
     talks := talks s;
     check_ins := check_ins s ++ [row] |}.

Definition apply_write (s : Store) (wr : Write) : Store :=
  match wr with
  | InsertCheckIn row => insert_check_in row s
  | DeleteUser id => delete_user_cascade id s
  end.

Inductive TxnStatus := Open | Committed | RolledBack.

Record Txn := mkTxn { status : TxnStatus; pending : list Write }.

Record Database := mkDatabase { store : Store; txns : list Txn }.

(** ** Errors, results and effects *)

Inductive Op :=
| OpTransaction | OpFindUser | OpFindEvent | OpFindCheckIn
| OpCreateCheckIn | OpDestroyUser | OpCommit | OpRollback.

Inductive Error :=
| NotFoundError (msg : string)
| StorageError (op : Op).

(** [types/success-message.type]: [{ success, message }]; [message] is
    [null] in [deleteUserById]. *)
Record SuccessMessage := mkMsg { success : bool; message : option string }.

Inductive PromiseState :=
| Pending
| Fulfilled (v : SuccessMessage)
| Rejected (e : Error).

Inductive Effect :=
| EffTransaction (t : nat)
| EffLookup (op : Op)
| EffCreate (row : CheckIn.t) (t : option nat)
| EffDestroyCalled (id : Z)
| EffDestroyed (id : Z)
| EffResolve (v : SuccessMessage)
| EffReject (e : Error)
| EffCommit (t : nat)
| EffRollback (t : nat)
| EffRaise (e : Error)
| EffUnhandledRejection (e : Error).

(** The options object of [instance.destroy(options)]; Sequelize gives
    [destroy] this one parameter, with [transaction] among its fields. *)
Record DestroyOptions := mkDestroy { force : bool; transaction_opt : option nat }.

Inductive InFlight :=
| DestroyCall (user : User.t) (options : DestroyOptions).

Record World := mkWorld {
  db : Store;
  txs : list Txn;
  in_flight : list InFlight;
  promise : PromiseState;
  effects : list Effect
}.

(** The order in which the three promises given to [Promise.all] settle;
    the digits are the positions in the array. *)
Inductive Order := O012 | O021 | O102 | O120 | O201 | O210.

(** What the storage layer does during one call: which operations fail, and
    in which order concurrent lookups complete. *)
Record Env := mkEnv { faults : Op -> bool; order : Order }.

(** ** The monad *)

Inductive Outcome (A : Type) :=
| Return (a : A)
| Throw (e : Error).
Arguments Return {A} a.
Arguments Throw {A} e.

Definition Exec (A : Type) : Type := World -> Outcome A * World.

Definition ret {A : Type} (a : A) : Exec A := fun w => (Return a, w).

Definition bind {A B : Type} (m : Exec A) (k : A -> Exec B) : Exec B :=
  fun w =>
    match m w with
    | (Return a, w') => k a w'
    | (Throw e, w') => (Throw e, w')
    end.

Declare Scope exec_scope.
Delimit Scope exec_scope with exec.
Notation "x <- m ;; k" := (bind m (fun x => k))
  (at level 61, m at next level, right associativity) : exec_scope.
Notation "m ;; k" := (bind m (fun _ => k))
  (at level 61, right associativity) : exec_scope.
Local Open Scope exec_scope.

Definition log (e : Effect) (w : World) : World :=
  mkWorld (db w) (txs w) (in_flight w) (promise w) (effects w ++ [e]).

Definition set_db (s : Store) (w : World) : World :=
  mkWorld s (txs w) (in_flight w) (promise w) (effects w).

Definition set_txs (l : list Txn) (w : World) : World :=
  mkWorld (db w) l (in_flight w) (promise w) (effects w).

Definition set_in_flight (l : list InFlight) (w : World) : World :=
  mkWorld (db w) (txs w) l (promise w) (effects w).

(** A promise settles once: later calls of [resolve] and [reject] change
    nothing. *)
Definition settle (p : PromiseState) (w : World) : World :=
  match promise w with
  | Pending => mkWorld (db w) (txs w) (in_flight w) p (effects w)
  | _ => w
  end.

Definition throw {A : Type} (e : Error) : Exec A :=
  fun w => (Throw e, log (EffRaise e) w).

Definition try_catch {A : Type} (m : Exec A) (handler : Error -> Exec A) : Exec A :=
  fun w =>
    match m w with
    | (Return a, w') => (Return a, w')
    | (Throw e, w') => handler e w'
    end.

Definition resolve (v : SuccessMessage) : Exec unit :=
  fun w => (Return tt, log (EffResolve v) (settle (Fulfilled v) w)).

Definition reject (e : Error) : Exec unit :=
  fun w => (Return tt, log (EffReject e) (settle (Rejected e) w)).

Fixpoint update_nth {A : Type} (n : nat) (f : A -> A) (l : list A) : list A :=
  match l, n with
  | [], _ => []
  | x :: l', O => f x :: l'
  | x :: l', S n' => x :: update_nth n' f l'
  end.

Definition add_pending (wr : Write) (tx : Txn) : Txn :=
  mkTxn (status tx) (pending tx ++ [wr]).

Definition is_open (t : nat) (w : World) : bool :=
  match nth_error (txs w) t with
  | Some (mkTxn Open _) => true
  | _ => false
  end.

(** A write goes to the store at once, or waits in its transaction. *)
Definition write (wr : Write) (t : option nat) (w : World) : option World :=
  match t with
  | None => Some (set_db (apply_write (db w) wr) w)
  | Some t =>
      if is_open t w then Some (set_txs (update_nth t (add_pending wr) (txs w)) w)
      else None
  end.

Definition is_pair (eventId userId : Z) (c : CheckIn.t) : bool :=
  (CheckIn.event_id c =? eventId) && (CheckIn.user_id c =? userId).

(** [findOne({ where: { id } })] on users and events, and
    [findOne({ where: { event_id, user_id } })] on check-ins: the first
    matching row, or [null]. *)
Definition find_user (id : Z) (s : Store) : option User.t :=
  find (fun u => User.id u =? id) (users s).

Definition find_event (id : Z) (s : Store) : option Event.t :=
  find (fun e => Event.id e =? id) (events s).

Definition find_check_in (eventId userId : Z) (s : Store) : option CheckIn.t :=
  find (is_pair eventId userId) (check_ins s).

Section Storage.

Variable env : Env.

(** [models.sequelize.transaction()] *)
Definition transaction : Exec nat :=
  fun w =>
    if faults env OpTransaction then throw (StorageError OpTransaction) w
    else
      let t := List.length (txs w) in
      (Return t, log (EffTransaction t) (set_txs (txs w ++ [mkTxn Open []]) w)).

(** [t.commit()] *)
Definition commit (t : nat) : Exec unit :=
  fun w =>
    if faults env OpCommit then throw (StorageError OpCommit) w
    else
      match nth_error (txs w) t with
      | Some (mkTxn Open writes) =>
          (Return tt,
           log (EffCommit t)
             (set_txs (update_nth t (fun _ => mkTxn Committed []) (txs w))
                (set_db (fold_left apply_write writes (db w)) w)))
      | _ => throw (StorageError OpCommit) w
      end.

(** [t.rollback()] *)
Definition rollback (t : nat) : Exec unit :=
  fun w =>
    if faults env OpRollback then throw (StorageError OpRollback) w
    else
      match nth_error (txs w) t with
      | Some (mkTxn Open _) =>
          (Return tt,
           log (EffRollback t)
             (set_txs (update_nth t (fun _ => mkTxn RolledBack []) (txs w)) w))
      | _ => throw (StorageError OpRollback) w
      end.

(** A [findOne] query; it runs outside every transaction. *)
Definition findOne {A : Type} (op : Op) (q : Store -> option A) : Exec (option A) :=
  fun w =>
    if faults env op then throw (StorageError op) w
    else (Return (q (db w)), log (EffLookup op) w).

Definition getUserById (id : Z) : Exec (option User.t) :=
  findOne OpFindUser (find_user id).

(** Modelled from the spec: [eventController.getEventById] lives in
    [event.controller], which is not among the sources; the spec gives its
    contract as [findEventById(id) -> Event | null]. *)
Definition getEventById (id : Z) : Exec (option Event.t) :=
  findOne OpFindEvent (find_event id).

Definition getCheckIn (eventId userId : Z) : Exec (option CheckIn.t) :=
  findOne OpFindCheckIn (find_check_in eventId userId).

(** [models.CheckIn.create(row, { transaction })] *)
Definition CheckIn_create (row : CheckIn.t) (t : option nat) : Exec CheckIn.t :=
  fun w =>
    if faults env OpCreateCheckIn then throw (StorageError OpCreateCheckIn) w
    else
      match write (InsertCheckIn row) t w with
      | Some w' => (Return row, log (EffCreate row t) w')
      | None => throw (StorageError OpCreateCheckIn) w
      end.

(** [user.destroy(options, extra)]: the call returns its promise at once
    and the query runs later.  [destroy] reads its first argument only, so
    whatever is passed second takes no part; the controller passes
    [{ force: true }] first and [{ transaction: t }] second.  With
    [force: true] the row is deleted, not marked. *)
Definition User_destroy (user : User.t) (options : DestroyOptions)
    (extra : option nat) : Exec unit :=
  fun w =>
    (Return tt,
     log (EffDestroyCalled (User.id user))
       (set_in_flight (in_flight w ++ [DestroyCall user options]) w)).

(** Completion of an operation nobody awaits: a failure has no handler. *)
Definition complete (w : World) (p : InFlight) : World :=
  match p with
  | DestroyCall user options =>
      if faults env OpDestroyUser
      then log (EffUnhandledRejection (StorageError OpDestroyUser)) w
      else
        match write (DeleteUser (User.id user)) (transaction_opt options) w with
        | Some w' => log (EffDestroyed (User.id user)) w'
        | None => log (EffUnhandledRejection (StorageError OpDestroyUser)) w
        end
  end.

Definition drain (w : World) : World :=
  fold_left complete (in_flight w) (set_in_flight [] w).

(** [await m]: the function yields, so operations started earlier and
    left running complete; then [m] completes. *)
Definition await {A : Type} (m : Exec A) : Exec A :=
  fun w => m (drain w).

(** [Promise.all([pa, pb, pc])]: the three run in the order of the
    environment, the first failure rejects the whole, the values come back
    by position. *)
Definition Promise_all {A B C : Type} (pa : Exec A) (pb : Exec B) (pc : Exec C)
    : Exec (A * B * C) :=
  match order env with
  | O012 => a <- pa ;; b <- pb ;; c <- pc ;; ret (a, b, c)
  | O021 => a <- pa ;; c <- pc ;; b <- pb ;; ret (a, b, c)
  | O102 => b <- pb ;; a <- pa ;; c <- pc ;; ret (a, b, c)
  | O120 => b <- pb ;; c <- pc ;; a <- pa ;; ret (a, b, c)
  | O201 => c <- pc ;; a <- pa ;; b <- pb ;; ret (a, b, c)
  | O210 => c <- pc ;; b <- pb ;; a <- pa ;; ret (a, b, c)
  end.

(** [new Promise(async (resolve, reject) => { ... })]: the promise starts
    pending; an exception that leaves the executor rejects the executor's
    own promise, which nobody holds, and does not touch the one returned. *)
Definition new_Promise (executor : Exec unit) (d : Database) : World :=
  match executor (mkWorld (store d) (txns d) [] Pending []) with
  | (Return _, w) => drain w
  | (Throw e, w) => drain (log (EffUnhandledRejection e) w)
  end.

Definition already_message (user : User.t) (event : Event.t) : string :=
  (User.email user ++ " has already checked into " ++ Event.name event)%string.

Definition checked_in_message (user : User.t) (event : Event.t) : string :=
  (User.email user ++ " checked into " ++ Event.name event ++ "!")%string.

(** The [try] block of [checkInToEvent]. *)
Definition checkInToEvent_try (t : nat) (eventId userId : Z) : Exec unit :=
  r <- await (Promise_all (getUserById userId) (getEventById eventId)
                (getCheckIn eventId userId)) ;;
  let '(user, event, existingCheckIn) := r in
  match user with
  | None => throw (NotFoundError "Unable to check-in because user does not exist")
  | Some user =>
      match event with
      | None => throw (NotFoundError "Unable to check-in because event does not exist")
      | Some event =>
          match existingCheckIn with
          | None =>
              checkIn <- await (CheckIn_create (CheckIn.mk eventId userId) (Some t)) ;;
              resolve (mkMsg true (Some (checked_in_message user event))) ;;
              await (commit t)
          | Some _ => ret tt
          end ;;
          resolve (mkMsg false (Some (already_message user event)))
      end
  end.

Definition checkInToEvent (eventId userId : Z) : Database -> World :=
  new_Promise
    (t <- await transaction ;;
     try_catch (checkInToEvent_try t eventId userId)
       (fun err => reject err ;; await (rollback t))).

Definition deleteUserById (id : Z) : Database -> World :=
  new_Promise
    (user <- await (getUserById id) ;;
     match user with
     | Some user =>
         t <- await transaction ;;
         try_catch
           (User_destroy user (mkDestroy true None) (Some t) ;;
            resolve (mkMsg true None) ;;
            await (commit t))
           (fun err => reject err ;; await (rollback t))
     | None => reject (NotFoundError "User does not exist")
     end).

End Storage.

Definition database (w : World) : Database := mkDatabase (db w) (txs w).

(** ** Reading a finished call *)

Definition settles (e : Effect) : bool :=
  match e with
  | EffResolve _ | EffReject _ => true
  | _ => false
  end.

(** The effects that happened before the promise was first settled, that
    is, before the result was handed to the caller. *)
Fixpoint before_delivery (effs : list Effect) : list Effect :=
  match effs with
  | [] => []
  | e :: rest => if settles e then [] else e :: before_delivery rest
  end.

Definition closes (t : nat) (e : Effect) : bool :=
  match e with
  | EffCommit t' | EffRollback t' => Nat.eqb t t'
  | _ => false
  end.

Definition closed_at_delivery (t : nat) (w : World) : bool :=
  existsb (closes t) (before_delivery (effects w)).

Definition txn_status (t : nat) (w : World) : option TxnStatus :=
  option_map status (nth_error (txs w) t).

Definition count_check_ins (eventId userId : Z) (s : Store) : nat :=
  List.length (filter (is_pair eventId userId) (check_ins s)).

(** An attempt to commit: the commit done, or the error it raised. *)
Definition commit_attempt (e : Effect) : bool :=
  match e with
  | EffCommit _ | EffRaise (StorageError OpCommit) => true
  | _ => false
  end.

(** The effects up to the first attempt to commit. *)
Fixpoint before_commit (effs : list Effect) : list Effect :=
  match effs with
  | [] => []
  | e :: rest => if commit_attempt e then [] else e :: before_commit rest
  end.

(** The operations, by position, in the order in which they complete. *)
Definition completion (o : Order) : list Op :=
  match o with
  | O012 => [OpFindUser; OpFindEvent; OpFindCheckIn]
  | O021 => [OpFindUser; OpFindCheckIn; OpFindEvent]
  | O102 => [OpFindEvent; OpFindUser; OpFindCheckIn]
  | O120 => [OpFindEvent; OpFindCheckIn; OpFindUser]
  | O201 => [OpFindCheckIn; OpFindUser; OpFindEvent]
  | O210 => [OpFindCheckIn; OpFindEvent; OpFindUser]
  end.

(** The listed storage operations do not fail during the call. *)
Definition succeed (env : Env) (ops : list Op) : Prop :=
  forall op, In op ops -> faults env op = false.

(** The storage operations on the path of a fresh check-in, and those up
    to the tests on the three lookups. *)
Definition check_in_ops : list Op :=
  [OpTransaction; OpFindUser; OpFindEvent; OpFindCheckIn; OpCreateCheckIn; OpCommit].

Definition lookup_ops : list Op :=
  [OpTransaction; OpFindUser; OpFindEvent; OpFindCheckIn].

(** No row of the store belongs to user [id]. *)
Definition user_gone (id : Z) (s : Store) : Prop :=
  find_user id s = None /\
  (forall x, In x (tokens s) -> Token.user_id x <> id) /\
  (forall x, In x (applications s) -> Application.user_id x <> id) /\
  (forall x, In x (talks s) -> Talk.speaker_id x <> id) /\
  (forall x, In x (check_ins s) -> CheckIn.user_id x <> id).

(** At most one check-in per (event, user) pair. *)
Definition at_most_one_check_in (s : Store) : Prop :=
  forall eventId userId, (count_check_ins eventId userId s <= 1)%nat.

(** ** Sample data *)

Definition no_faults : Op -> bool := fun _ => false.

Definition only (op : Op) : Op -> bool :=
  fun op' =>
    match op, op' with
    | OpTransaction, OpTransaction | OpFindUser, OpFindUser
    | OpFindEvent, OpFindEvent | OpFindCheckIn, OpFindCheckIn
    | OpCreateCheckIn, OpCreateCheckIn | OpDestroyUser, OpDestroyUser
    | OpCommit, OpCommit | OpRollback, OpRollback => true
    | _, _ => false
    end.

Definition calm : Env := mkEnv no_faults O012.

Definition alice : User.t := User.mk 42 "a@b.com".

Definition hack : Event.t := Event.mk 5 "Hackathon".

Definition hackathon : Database :=
  mkDatabase
    (mkStore [alice] [hack] [Token.mk 42 "tok"; Token.mk 7 "other"]
       [Application.mk 42] [Talk.mk 42 "Rocq" "talk"] [CheckIn.mk 9 42])
    [].

(** ** The other queries of the controller, and the routes

    The remaining functions of [user.controller.js] that read users, and the
    handlers of the user routes ([routes/user]) that call the controller.
    The handlers are [async] functions: what they produce is a [Result]. *)

(** The queries that only these functions issue. *)
Inductive Query := QFindAllUsers | QCountUsers | QFindByEmail | QFindByIdAndEmail.

Inductive Failure :=
| BadRequestError (msg : string)
| Raised (e : Error)
| QueryFailed (q : Query).

(** What an asynchronous call comes to: a value, an error, or nothing at
    all when the promise it awaits never settles. *)
Inductive Result (A : Type) :=
| Done (a : A)
| Failed (f : Failure)
| Hangs.
Arguments Done {A} a.
Arguments Failed {A} f.
Arguments Hangs {A}.

Definition and_then {A B : Type} (r : Result A) (k : A -> Result B) : Result B :=
  match r with
  | Done a => k a
  | Failed f => Failed f
  | Hangs => Hangs
  end.

(** The numbers that [Math.ceil(count / limit)] gives on integers. *)
Inductive Number :=
| Int (z : Z)
| Infinity
| NegInfinity
| NaN.

(** [{ page, pageSize, totalPages, totalUsers, users }] *)
Record UserPage := mkPage {
  page : Z;
  pageSize : Z;
  totalPages : Number;
  totalUsers : Z;
  page_users : list User.t
}.

(** What the storage layer does with the queries of one call: which fail,
    and whether the count completes before the rows. *)
Record QueryEnv := mkQueryEnv { query_faults : Query -> bool; count_first : bool }.

(** [findAll({ limit, offset })] on users: [LIMIT limit OFFSET offset] over
    the rows in the order of the table (the source asks for no other order).
    Meant for [0 <= offset] and [0 <= limit]. *)
Definition getUsers (limit offset : Z) (s : Store) : list User.t :=
  firstn (Z.to_nat limit) (skipn (Z.to_nat offset) (users s)).

(** [models.User.count()] *)
Definition getUserCount (s : Store) : Z := Z.of_nat (List.length (users s)).

(** [Math.ceil(a / b)] on integers. *)
Definition ceil_quotient (a b : Z) : Number :=
  if b =? 0 then
    (if a =? 0 then NaN else if 0 <? a then Infinity else NegInfinity)
  else Int (- ((- a) / b)).

(** [pageNumber < 1 ? 0 : (pageNumber - 1) * limit] *)
Definition page_offset (pageNumber limit : Z) : Z :=
  if pageNumber <? 1 then 0 else (pageNumber - 1) * limit.

(** A parameter with a default value: [undefined] takes the default. *)
Definition default (d : Z) (arg : option Z) : Z :=
  match arg with
  | Some z => z
  | None => d
  end.

(** [getUserPage(pageNumber = 1, limit = 10)]: both queries run under
    [Promise.all] inside the [try]; the first failure rejects the promise. *)
Definition getUserPage (qenv : QueryEnv) (pageNumber limit : option Z) (s : Store)
    : Result UserPage :=
  let pageNumber := default 1 pageNumber in
  let limit := default 10 limit in
  let offset := page_offset pageNumber limit in
  let rows := if query_faults qenv QFindAllUsers then Failed (QueryFailed QFindAllUsers)
              else Done (getUsers limit offset s) in
  let count := if query_faults qenv QCountUsers then Failed (QueryFailed QCountUsers)
               else Done (getUserCount s) in
  let resolve_page users count :=
    Done (mkPage pageNumber limit (ceil_quotient count limit) count users) in
  if count_first qenv
  then and_then count (fun count => and_then rows (fun users => resolve_page users count))
  else and_then rows (fun users => and_then count (fun count => resolve_page users count)).

(** [findOne({ where: { email } })] and [findOne({ where: { email, id } })]:
    the first row whose values are the ones asked for; strings are compared
    as they are stored.  The tokens that the queries join to the row do not
    decide which row it is and are left out. *)
Definition getUserByEmail (qenv : QueryEnv) (email : string) (s : Store)
    : Result (option User.t) :=
  if query_faults qenv QFindByEmail then Failed (QueryFailed QFindByEmail)
  else Done (find (fun u => String.eqb (User.email u) email) (users s)).

Definition getUserByIdAndEmail (qenv : QueryEnv) (id : Z) (email : string) (s : Store)
    : Result (option User.t) :=
  if query_faults qenv QFindByIdAndEmail then Failed (QueryFailed QFindByIdAndEmail)
  else
    Done (find (fun u => String.eqb (User.email u) email && (User.id u =? id)) (users s)).

(** What an [async] function gets from [await] on a promise of the
    controller. *)
Definition awaited (p : PromiseState) : Result SuccessMessage :=
  match p with
  | Pending => Hangs
  | Fulfilled v => Done v
  | Rejected e => Failed (Raised e)
  end.

(** [await] on a query written in [Exec], run on the database as it is. *)
Definition awaited_query {A : Type} (m : Exec A) (d : Database) : Result A :=
  match fst (m (mkWorld (store d) (txns d) [] Pending [])) with
  | Return a => Done a
  | Throw e => Failed (Raised e)
  end.

(** The value of [parseInt(...)]: an integer, or [NaN] ([None]).  [!n] holds
    of [NaN] and of [0]. *)
Definition truthy (n : option Z) : bool :=
  match n with
  | Some z => negb (z =? 0)
  | None => false
  end.

Definition number (n : option Z) : Z :=
  match n with
  | Some z => z
  | None => 0
  end.

(** A string that may be [null]: it counts as true unless [null] or empty. *)
Definition truthy_string (x : option string) : bool :=
  match x with
  | Some x => negb (String.eqb x "")
  | None => false
  end.

Definition text (x : option string) : string :=
  match x with
  | Some x => x
  | None => ""
  end.

Module Routes.

(** [page] and [limit] are [parseInt(req.query.page)] and
    [parseInt(req.query.limit)]. *)
Definition getUserPage (qenv : QueryEnv) (page limit : option Z) (s : Store)
    : Result UserPage :=
  let limit := if truthy limit then limit else None in
  let pageNumber :=
    if negb (truthy page) || (number page <? 1) then Some 1 else page in
  getUserPage qenv pageNumber limit s.

(** [email] is [normalizeString(req.query.email)] (the helper is not among
    the sources) and [userId] is [parseInt(req.query.id)]. *)
Definition getSingleUser (env : Env) (qenv : QueryEnv) (email : option string)
    (userId : option Z) (d : Database) : Result User.t :=
  and_then
    (if truthy_string email && truthy userId
     then getUserByIdAndEmail qenv (number userId) (text email) (store d)
     else
       if negb (truthy_string email) && negb (truthy userId)
       then Failed (BadRequestError "Please supply either a valid email or id parameter")
       else
         and_then
           (if truthy_string email then getUserByEmail qenv (text email) (store d)
            else Done None)
           (fun user =>
              if truthy userId then awaited_query (getUserById env (number userId)) d
              else Done user))
    (fun user =>
       match user with
       | Some user => Done user
       | None => Failed (Raised (NotFoundError "The requested user does not exist"))
       end).

(** [user_id] is [parseInt(req.body.user_id)]. *)
Definition deleteUserById (env : Env) (user_id : option Z) (d : Database)
    : Result SuccessMessage * Database :=
  if negb (truthy user_id)
  then (Failed (BadRequestError "You must supply a valid user id"), d)
  else
    let w := deleteUserById env (number user_id) d in
    (awaited (promise w), database w).

(** [user_id] and [event_id] are [parseInt(req.body.user_id)] and
    [parseInt(req.body.event_id)]. *)
Definition checkUserIntoEvent (env : Env) (user_id event_id : option Z) (d : Database)
    : Result SuccessMessage * Database :=
  if negb (truthy user_id)
  then (Failed (BadRequestError "You must supply a valid user id"), d)
  else
    if negb (truthy event_id)
    then (Failed (BadRequestError "You must supply a valid event id"), d)
    else
      let w := checkInToEvent env (number event_id) (number user_id) d in
      (awaited (promise w), database w).

End Routes.

(** A user has every value that was given. *)
Definition matches_criteria (email : option string) (userId : option Z) (u : User.t)
    : bool :=
  (if truthy_string email then String.eqb (User.email u) (text email) else true)
  && (if truthy userId then User.id u =? number userId else true).

(** The rows of a page, when there is one. *)
Definition rows_of (r : Result UserPage) : list User.t :=
  match r with
  | Done p => page_users p
  | _ => []
  end.

Definition quiet : QueryEnv := mkQueryEnv (fun _ => false) false.

Definition bob : User.t := User.mk 7 "b@c.org".

Definition carol : User.t := User.mk 8 "c@d.net".

Definition three_users : Store :=
  mkStore [alice; bob; carol] [hack] [] [] [] [].

(** ** Calls that overlap

    While an [async] function waits at an [await], whatever else is running
    gets its turn.  [checkInToEvent_meanwhile] is [checkInToEvent] with that
    turn written out at each of its five [await]s; with nothing else running
    it is [checkInToEvent] itself. *)

Inductive AwaitPoint := AtTransaction | AtLookups | AtCreate | AtCommit | AtRollback.

(** [await m] with [others] running while the function waits. *)
Definition await_meanwhile (env : Env) (others : World -> World) {A : Type}
    (m : Exec A) : Exec A :=
  fun w => m (others (drain env w)).

Definition checkInToEvent_try_meanwhile (env : Env)
    (others : AwaitPoint -> World -> World) (t : nat) (eventId userId : Z)
    : Exec unit :=
  r <- await_meanwhile env (others AtLookups)
         (Promise_all env (getUserById env userId) (getEventById env eventId)
            (getCheckIn env eventId userId)) ;;
  let '(user, event, existingCheckIn) := r in
  match user with
  | None => throw (NotFoundError "Unable to check-in because user does not exist")
  | Some user =>
      match event with
      | None => throw (NotFoundError "Unable to check-in because event does not exist")
      | Some event =>
          match existingCheckIn with
          | None =>
              checkIn <- await_meanwhile env (others AtCreate)
                           (CheckIn_create env (CheckIn.mk eventId userId) (Some t)) ;;
              resolve (mkMsg true (Some (checked_in_message user event))) ;;
              await_meanwhile env (others AtCommit) (commit env t)
          | Some _ => ret tt
          end ;;
          resolve (mkMsg false (Some (already_message user event)))
      end
  end.

Definition checkInToEvent_meanwhile (env : Env)
    (others : AwaitPoint -> World -> World) (eventId userId : Z)
    : Database -> World :=
  new_Promise env
    (t <- await_meanwhile env (others AtTransaction) (transaction env) ;;
     try_catch (checkInToEvent_try_meanwhile env others t eventId userId)
       (fun err =>
          reject err ;; await_meanwhile env (others AtRollback) (rollback env t))).

Definition nothing_else : AwaitPoint -> World -> World := fun _ w => w.

(** Another call runs from its start to its end on the database as the
    waiting call finds it (nothing orders the operation the first call waits
    for and the operations of the other call); its effects go into the log at
    the time they happen, its promise is its own and the waiting call keeps
    its own. *)
Definition other_call (call : Database -> World) (w : World) : World :=
  let w' := call (database w) in
  mkWorld (db w') (txs w') (in_flight w) (promise w) (effects w ++ effects w').

Definition same_point (p q : AwaitPoint) : bool :=
  match p, q with
  | AtTransaction, AtTransaction | AtLookups, AtLookups | AtCreate, AtCreate
  | AtCommit, AtCommit | AtRollback, AtRollback => true
  | _, _ => false
  end.

(** The other call runs while the first waits at [p]. *)
Definition during (p : AwaitPoint) (call : Database -> World)
    : AwaitPoint -> World -> World :=
  fun q w => if same_point p q then other_call call w else w.

(** The calls of [resolve] in a log that tell [success: true]. *)
Definition told_success (e : Effect) : bool :=
  match e with
  | EffResolve v => success v
  | _ => false
  end.

(** ** Symbolic execution *)

Lemma nth_error_snoc {A : Type} (l : list A) (x : A) :
  nth_error (l ++ [x]) (List.length l) = Some x.
Proof.
  induction l as [|y l IH]; simpl; auto.
Qed.

Lemma update_nth_snoc {A : Type} (f : A -> A) (l : list A) (x : A) :
  update_nth (List.length l) f (l ++ [x]) = l ++ [f x].
Proof.
  induction l as [|y l IH]; simpl; [reflexivity | now rewrite IH].
Qed.

(** Weak head reduction of a run: the flow is unfolded only as far as the
    next test that the storage layer or the rows decide. *)
Ltac whnf t :=
  eval lazy head beta iota zeta delta
    -[faults order find_user find_event find_check_in nth_error] in t.

(** Normal form of the worlds built so far; the flow itself stays folded. *)
Ltac norm t :=
  eval cbv beta iota zeta delta
    [db txs in_flight promise effects store txns status pending log set_db
     set_txs set_in_flight settle drain complete write is_open fold_left
     database transaction_opt apply_write] in t.

(** A test is settled from a hypothesis when there is one, by cases
    otherwise. *)
Ltac settle_test E y :=
  first
    [ match goal with H : y = _ |- _ => rewrite H in E end
    | let H := fresh "Case" in
      destruct y eqn:H; try rewrite H in E; try (exfalso; congruence) ].

(** Finds in the run [r] of [E] a test that is ready to be decided and
    decides it: a fault (also from [Ok : succeed env ops]), the order of the
    lookups, the last entry of the transaction table, a lookup in the rows. *)
Ltac decide_test E Ok r :=
  match r with
  | context [match faults ?e ?op with _ => _ end] =>
      first
        [ rewrite (Ok op) in E by (simpl; tauto)
        | match goal with
          | H : forall o, faults e o = _ |- _ => rewrite (H op) in E
          end
        | settle_test E (faults e op) ]
  | context [match order ?e with _ => _ end] => settle_test E (order e)
  | context [match nth_error (?l ++ [?x]) (List.length ?l') with _ => _ end] =>
      constr_eq l l'; rewrite (nth_error_snoc l x) in E
  | context [match nth_error (update_nth (List.length ?l) ?f (?l' ++ [?x])) _
             with _ => _ end] =>
      constr_eq l l'; rewrite (update_nth_snoc f l x) in E
  | context [match find_user ?u ?s with _ => _ end] =>
      is_var s; settle_test E (find_user u s)
  | context [match find_event ?u ?s with _ => _ end] =>
      is_var s; settle_test E (find_event u s)
  | context [match find_check_in ?e ?u ?s with _ => _ end] =>
      is_var s; settle_test E (find_check_in e u s)
  end.

(** Runs [E : w = flow] to its end: [flow] becomes an explicit world in
    every case that the hypotheses leave open. *)
Ltac exec_in E Ok :=
  let T := type of E in
  lazymatch T with
  | ?w = ?rhs =>
      let r1 := whnf rhs in
      let r2 := norm r1 in
      change (w = r2) in E;
      tryif decide_test E Ok r2 then exec_in E Ok else idtac
  end.

Ltac snoc_step :=
  match goal with
  | |- context [update_nth (List.length ?l) ?f (?l' ++ [?x])] =>
      constr_eq l l'; rewrite (update_nth_snoc f l x)
  | |- context [nth_error (?l ++ [?x]) (List.length ?l')] =>
      constr_eq l l'; rewrite (nth_error_snoc l x)
  end.

(** Names the run of the goal, executes it and puts the result back. *)
Ltac run_flow_with Ok :=
  match goal with
  | |- context [checkInToEvent ?env ?e ?u ?d] =>
      let w := fresh "w" in
      let E := fresh "E" in
      remember (checkInToEvent env e u d) as w eqn:E;
      exec_in E Ok; subst w
  | |- context [deleteUserById ?env ?i ?d] =>
      let w := fresh "w" in
      let E := fresh "E" in
      remember (deleteUserById env i d) as w eqn:E;
      exec_in E Ok; subst w
  end;
  simpl; repeat (snoc_step; simpl).

Ltac run_flow := run_flow_with I.

(** ** Counting check-ins *)

Lemma count_insert (row : CheckIn.t) (s : Store) (eventId userId : Z) :
  count_check_ins eventId userId (insert_check_in row s) =
  (count_check_ins eventId userId s + (if is_pair eventId userId row then 1 else 0))%nat.
Proof.
  unfold count_check_ins, insert_check_in; simpl.
  rewrite filter_app, length_app; simpl.
  destruct (is_pair eventId userId row); reflexivity.
Qed.

Lemma find_none_count (eventId userId : Z) (s : Store) :
  find_check_in eventId userId s = None -> count_check_ins eventId userId s = 0%nat.
Proof.
  unfold find_check_in, count_check_ins.
  induction (check_ins s) as [|c l IH]; simpl; [reflexivity|].
  destruct (is_pair eventId userId c); [discriminate | exact IH].
Qed.

Lemma find_some_count (eventId userId : Z) (s : Store) (c : CheckIn.t) :
  find_check_in eventId userId s = Some c -> (1 <= count_check_ins eventId userId s)%nat.
Proof.
  unfold find_check_in, count_check_ins.
  induction (check_ins s) as [|c' l IH]; simpl; [discriminate|].
  destruct (is_pair eventId userId c'); simpl; [lia | exact IH].
Qed.

Lemma is_pair_self (eventId userId : Z) :
  is_pair eventId userId (CheckIn.mk eventId userId) = true.
Proof.
  unfold is_pair; simpl. now rewrite !Z.eqb_refl.
Qed.

Lemma is_pair_inv (e u : Z) (c : CheckIn.t) :
  is_pair e u c = true -> CheckIn.event_id c = e /\ CheckIn.user_id c = u.
Proof.
  unfold is_pair. rewrite andb_true_iff, !Z.eqb_eq. tauto.
Qed.

Lemma insert_keeps_at_most_one (eventId userId : Z) (s : Store) :
  at_most_one_check_in s ->
  find_check_in eventId userId s = None ->
  at_most_one_check_in (insert_check_in (CheckIn.mk eventId userId) s).
Proof.
  intros Inv Fc e u. rewrite count_insert.
  destruct (is_pair e u (CheckIn.mk eventId userId)) eqn:P.
  - apply is_pair_inv in P; simpl in P; destruct P; subst.
    rewrite (find_none_count _ _ _ Fc). lia.
  - specialize (Inv e u). lia.
Qed.

Lemma filter_length_le {A : Type} (f g : A -> bool) (l : list A) :
  (List.length (filter f (filter g l)) <= List.length (filter f l))%nat.
Proof.
  induction l as [|x l IH]; simpl; [lia|].
  destruct (g x); simpl; destruct (f x); simpl; lia.
Qed.

Lemma delete_keeps_at_most_one (id : Z) (s : Store) :
  at_most_one_check_in s -> at_most_one_check_in (delete_user_cascade id s).
Proof.
  intros Inv e u. specialize (Inv e u).
  unfold count_check_ins, delete_user_cascade, keep in *; simpl.
  eapply Nat.le_trans; [apply filter_length_le | exact Inv].
Qed.

Lemma keep_excludes {A : Type} (key : A -> Z) (id : Z) (rows : list A) (x : A) :
  In x (keep key id rows) -> key x <> id.
Proof.
  unfold keep. rewrite filter_In, negb_true_iff, Z.eqb_neq. tauto.
Qed.

Lemma find_user_id (id : Z) (s : Store) (user : User.t) :
  find_user id s = Some user -> User.id user = id.
Proof.
  unfold find_user. intros H. apply find_some in H. now apply Z.eqb_eq.
Qed.

Lemma delete_user_gone (id : Z) (s : Store) : user_gone id (delete_user_cascade id s).
Proof.
  unfold user_gone, delete_user_cascade; simpl. repeat split.
  - unfold find_user; simpl.
    destruct (find (fun u => User.id u =? id) (keep User.id id (users s))) eqn:F;
      [|reflexivity].
    apply find_some in F. destruct F as [F1 F2].
    apply keep_excludes in F1. apply Z.eqb_eq in F2. contradiction.
  - intros x; apply keep_excludes.
  - intros x; apply keep_excludes.
  - intros x; apply keep_excludes.
  - intros x; apply keep_excludes.
Qed.

Lemma find_after_insert (eventId userId : Z) (s : Store) :
  find_check_in eventId userId s = None ->
  find_check_in eventId userId (insert_check_in (CheckIn.mk eventId userId) s) =
  Some (CheckIn.mk eventId userId).
Proof.
  unfold find_check_in, insert_check_in; simpl.
  induction (check_ins s) as [|c l IH]; simpl.
  - now rewrite is_pair_self.
  - destruct (is_pair eventId userId c); [discriminate | exact IH].
Qed.

(** ** The check-in flow *)

Lemma checkIn_fresh_run
    (env : Env) (d : Database) (eventId userId : Z) (user : User.t) (event : Event.t) :
  succeed env check_in_ops ->
  find_user userId (store d) = Some user ->
  find_event eventId (store d) = Some event ->
  find_check_in eventId userId (store d) = None ->
  promise (checkInToEvent env eventId userId d) =
    Fulfilled (mkMsg true (Some (checked_in_message user event))) /\
  db (checkInToEvent env eventId userId d) =
    insert_check_in (CheckIn.mk eventId userId) (store d) /\
  txs (checkInToEvent env eventId userId d) = txns d ++ [mkTxn Committed []].
Proof.
  intros Ok Fu Fe Fc. destruct d as [s tx]; simpl in *.
  unfold check_in_ops in Ok. run_flow_with Ok; auto.
Qed.

Lemma checkIn_already_run
    (env : Env) (d : Database) (eventId userId : Z) (user : User.t) (event : Event.t)
    (c : CheckIn.t) :
  succeed env lookup_ops ->
  find_user userId (store d) = Some user ->
  find_event eventId (store d) = Some event ->
  find_check_in eventId userId (store d) = Some c ->
  promise (checkInToEvent env eventId userId d) =
    Fulfilled (mkMsg false (Some (already_message user event))) /\
  db (checkInToEvent env eventId userId d) = store d /\
  txs (checkInToEvent env eventId userId d) = txns d ++ [mkTxn Open []] /\
  existsb (closes (List.length (txns d)))
    (effects (checkInToEvent env eventId userId d)) = false.
Proof.
  intros Ok Fu Fe Fc. destruct d as [s tx]; simpl in *.
  unfold lookup_ops in Ok. run_flow_with Ok; auto.
Qed.

Lemma checkIn_keeps_at_most_one (env : Env) (d : Database) (eventId userId : Z) :
  at_most_one_check_in (store d) ->
  at_most_one_check_in (db (checkInToEvent env eventId userId d)).
Proof.
  intros Inv. destruct d as [s tx]; simpl in *.
  run_flow; auto using insert_keeps_at_most_one.
Qed.

Lemma deleteUser_keeps_at_most_one (env : Env) (d : Database) (id : Z) :
  at_most_one_check_in (store d) ->
  at_most_one_check_in (db (deleteUserById env id d)).
Proof.
  intros Inv. destruct d as [s tx]; simpl in *.
  run_flow; auto using delete_keeps_at_most_one.
Qed.

(** C1: when the user and the event exist and the pair has no check-in,
    and the storage operations of the path succeed, [checkInToEvent] adds
    exactly one row for the pair and the caller receives
    [{success: true, message: "<email> checked into <event>!"}]. *)
Theorem checkIn_fresh_creates_one_row
    (env : Env) (d : Database) (eventId userId : Z) (user : User.t) (event : Event.t) :
  succeed env check_in_ops ->
  find_user userId (store d) = Some user ->
  find_event eventId (store d) = Some event ->
  find_check_in eventId userId (store d) = None ->
  let w := checkInToEvent env eventId userId d in
  promise w =
    Fulfilled (mkMsg true
                 (Some (User.email user ++ " checked into " ++ Event.name event ++ "!")%string)) /\
  check_ins (db w) = check_ins (store d) ++ [CheckIn.mk eventId userId] /\
  count_check_ins eventId userId (db w) = 1%nat.
Proof.
  intros Ok Fu Fe Fc w.
  destruct (checkIn_fresh_run env d eventId userId user event Ok Fu Fe Fc) as (P & S & _).
  fold w in P, S. split; [exact P|].
  rewrite S. split; [reflexivity|].
  rewrite count_insert, is_pair_self, (find_none_count _ _ _ Fc). reflexivity.
Qed.

Lemma checkIn_fresh_creates_one_row_witness :
  let w := checkInToEvent calm 5 42 hackathon in
  promise w = Fulfilled (mkMsg true (Some "a@b.com checked into Hackathon!"%string)) /\
  check_ins (db w) = [CheckIn.mk 9 42; CheckIn.mk 5 42] /\
  count_check_ins 5 42 (db w) = 1%nat.
Proof.
  apply (checkIn_fresh_creates_one_row calm hackathon 5 42 alice hack).
  - intros op _; reflexivity.
  - reflexivity.
  - reflexivity.
  - reflexivity.
Defined.

(** Calls that do not overlap: with the user and the event present, a
    call of [checkInToEvent] and then, once the first has run to its end with
    its commit done, a second call for the same pair leave exactly one row for
    it and the second caller receives [{success: false, message: "<email> has
    already checked into <event>"}]; a call of [checkInToEvent] or of
    [deleteUserById] that runs alone keeps the store at no more than one
    check-in per pair, whatever the storage layer does. *)
Theorem checkIn_twice_one_row :
  (forall env d eventId userId,
      at_most_one_check_in (store d) ->
      at_most_one_check_in (db (checkInToEvent env eventId userId d))) /\
  (forall env d id,
      at_most_one_check_in (store d) ->
      at_most_one_check_in (db (deleteUserById env id d))) /\
  (forall env1 env2 d eventId userId user event,
      succeed env1 check_in_ops ->
      succeed env2 check_in_ops ->
      at_most_one_check_in (store d) ->
      find_user userId (store d) = Some user ->
      find_event eventId (store d) = Some event ->
      let w1 := checkInToEvent env1 eventId userId d in
      let w2 := checkInToEvent env2 eventId userId (database w1) in
      count_check_ins eventId userId (db w2) = 1%nat /\
      promise w2 =
        Fulfilled (mkMsg false
                     (Some (User.email user ++ " has already checked into "
                              ++ Event.name event)%string))).
Proof.
  split; [exact checkIn_keeps_at_most_one|].
  split; [exact deleteUser_keeps_at_most_one|].
  intros env1 env2 d eventId userId user event Ok1 Ok2 Inv Fu Fe w1 w2.
  assert (Ok2' : succeed env2 lookup_ops)
    by (intros op Hop; apply Ok2; simpl in *; tauto).
  assert (Ok1' : succeed env1 lookup_ops)
    by (intros op Hop; apply Ok1; simpl in *; tauto).
  subst w1 w2.
  destruct (find_check_in eventId userId (store d)) as [c|] eqn:Fc.
  - destruct (checkIn_already_run env1 d eventId userId user event c Ok1' Fu Fe Fc)
      as (_ & S1 & T1 & _).
    assert (D1 : database (checkInToEvent env1 eventId userId d) =
                 mkDatabase (store d) (txns d ++ [mkTxn Open []]))
      by (unfold database; rewrite S1, T1; reflexivity).
    rewrite D1.
    destruct (checkIn_already_run env2 (mkDatabase (store d) (txns d ++ [mkTxn Open []]))
                eventId userId user event c Ok2' Fu Fe Fc) as (P2 & S2 & _).
    split; [|exact P2].
    rewrite S2. simpl.
    pose proof (find_some_count _ _ _ _ Fc). specialize (Inv eventId userId). lia.
  - destruct (checkIn_fresh_run env1 d eventId userId user event Ok1 Fu Fe Fc)
      as (_ & S1 & T1).
    assert (D1 : database (checkInToEvent env1 eventId userId d) =
                 mkDatabase (insert_check_in (CheckIn.mk eventId userId) (store d))
                   (txns d ++ [mkTxn Committed []]))
      by (unfold database; rewrite S1, T1; reflexivity).
    rewrite D1.
    destruct (checkIn_already_run env2
                (mkDatabase (insert_check_in (CheckIn.mk eventId userId) (store d))
                   (txns d ++ [mkTxn Committed []]))
                eventId userId user event (CheckIn.mk eventId userId) Ok2' Fu Fe
                (find_after_insert _ _ _ Fc)) as (P2 & S2 & _).
    split; [|exact P2].
    rewrite S2. simpl.
    rewrite count_insert, is_pair_self, (find_none_count _ _ _ Fc). reflexivity.
Qed.

Lemma checkIn_twice_one_row_witness :
  let w1 := checkInToEvent calm 5 42 hackathon in
  let w2 := checkInToEvent calm 5 42 (database w1) in
  count_check_ins 5 42 (db w2) = 1%nat /\
  promise w2 =
    Fulfilled (mkMsg false (Some "a@b.com has already checked into Hackathon"%string)).
Proof.
  apply (proj2 (proj2 checkIn_twice_one_row) calm calm hackathon 5 42 alice hack).
  - intros op _; reflexivity.
  - intros op _; reflexivity.
  - intros e u. unfold count_check_ins; simpl.
    destruct (is_pair e u (CheckIn.mk 9 42)); simpl; lia.
  - reflexivity.
  - reflexivity.
Defined.

(** C3: when the user does not exist, or the event does not exist,
    [checkInToEvent] rejects with a [NotFoundError], never calls
    [CheckIn.create] and leaves the rows as they were. *)
Theorem checkIn_missing_entity_not_found
    (env : Env) (d : Database) (eventId userId : Z) :
  succeed env lookup_ops ->
  find_user userId (store d) = None \/ find_event eventId (store d) = None ->
  let w := checkInToEvent env eventId userId d in
  (exists msg, promise w = Rejected (NotFoundError msg)) /\
  db w = store d /\
  (forall row t, ~ In (EffCreate row t) (effects w)).
Proof.
  intros Ok Missing. destruct d as [s tx]; simpl in *. unfold lookup_ops in Ok.
  destruct Missing as [Fu | Fe]; run_flow_with Ok.
  all: repeat split; eauto.
  all: intros row tr H; repeat (destruct H as [H | H]; try discriminate H); exact H.
Qed.

Lemma checkIn_missing_entity_not_found_witness :
  let w := checkInToEvent calm 5 43 hackathon in
  (exists msg, promise w = Rejected (NotFoundError msg)) /\
  db w = store hackathon /\
  (forall row t, ~ In (EffCreate row t) (effects w)).
Proof.
  apply (checkIn_missing_entity_not_found calm hackathon 5 43).
  - intros op _; reflexivity.
  - left; reflexivity.
Defined.

(** C10: when neither the user nor the event exists, the error names the
    user: the test on the user comes first. *)
Theorem checkIn_missing_user_first
    (env : Env) (d : Database) (eventId userId : Z) :
  succeed env lookup_ops ->
  find_user userId (store d) = None ->
  find_event eventId (store d) = None ->
  promise (checkInToEvent env eventId userId d) =
    Rejected (NotFoundError "Unable to check-in because user does not exist").
Proof.
  intros Ok Fu Fe. destruct d as [s tx]; simpl in *. unfold lookup_ops in Ok.
  run_flow_with Ok; reflexivity.
Qed.

Lemma checkIn_missing_user_first_witness :
  promise (checkInToEvent calm 6 43 hackathon) =
    Rejected (NotFoundError "Unable to check-in because user does not exist").
Proof.
  apply (checkIn_missing_user_first calm hackathon 6 43).
  - intros op _; reflexivity.
  - reflexivity.
  - reflexivity.
Defined.

(** When the transaction cannot be opened the error leaves the executor
    outside its [try]: the promise of the call is never settled. *)
Lemma checkIn_begin_failure_pending (env : Env) (d : Database) (eventId userId : Z) :
  faults env OpTransaction = true ->
  promise (checkInToEvent env eventId userId d) = Pending /\
  database (checkInToEvent env eventId userId d) = d.
Proof.
  intros Ht. destruct d as [s tx]. run_flow. auto.
Qed.

(** Once the transaction of the call is open, an error raised before
    the commit is attempted (a [NotFoundError], or a failure of a lookup or of
    the insert) reaches the caller as the rejection of the promise; the
    rollback, when it succeeds, closes the transaction, and the rows are those
    from before the call. *)
Theorem checkIn_error_rolls_back
    (env : Env) (d : Database) (eventId userId : Z) (err : Error) :
  faults env OpTransaction = false ->
  faults env OpRollback = false ->
  let w := checkInToEvent env eventId userId d in
  In (EffRaise err) (before_commit (effects w)) ->
  promise w = Rejected err /\
  txn_status (List.length (txns d)) w = Some RolledBack /\
  db w = store d.
Proof.
  intros Ht Hr. destruct d as [s tx]; simpl in *.
  run_flow; unfold txn_status; simpl; repeat (snoc_step; simpl).
  all: intros H; repeat (destruct H as [H | H]; try discriminate H);
    try contradiction.
  all: injection H as <-; auto.
Qed.

Lemma checkIn_error_rolls_back_witness :
  let w := checkInToEvent calm 5 43 hackathon in
  promise w = Rejected (NotFoundError "Unable to check-in because user does not exist") /\
  txn_status 0 w = Some RolledBack /\
  db w = store hackathon.
Proof.
  apply (checkIn_error_rolls_back calm hackathon 5 43
           (NotFoundError "Unable to check-in because user does not exist")).
  - reflexivity.
  - reflexivity.
  - vm_compute. tauto.
Defined.

(** Every completion order of the lookups gives the run of the order
    user, event, check-in, up to the order of the three lookups in the log. *)
Lemma lookups_order_canonical
    (env env0 : Env) (d : Database) (eventId userId : Z) :
  (forall op, faults env op = faults env0 op) ->
  order env0 = O012 ->
  succeed env0 [OpFindUser; OpFindEvent; OpFindCheckIn] ->
  let w := checkInToEvent env eventId userId d in
  let w0 := checkInToEvent env0 eventId userId d in
  promise w = promise w0 /\
  database w = database w0 /\
  (faults env0 OpTransaction = false ->
   effects w =
     EffTransaction (List.length (txns d))
       :: map EffLookup (completion (order env)) ++ skipn 4 (effects w0)) /\
  (forall op, ~ In (EffLookup op) (skipn 4 (effects w0))).
Proof.
  intros Same Canon Ok. destruct d as [s tx]; simpl.
  remember (checkInToEvent env0 eventId userId (mkDatabase s tx)) as w0 eqn:E0.
  remember (checkInToEvent env eventId userId (mkDatabase s tx)) as w eqn:E.
  exec_in E0 Ok; exec_in E Ok; subst w w0; simpl; repeat (snoc_step; simpl).
  all: repeat split; try reflexivity; intros; try (exfalso; congruence).
  all: intros H; repeat (destruct H as [H | H]; try discriminate H); exact H.
Qed.

(** C9: the three lookups of [checkInToEvent] all complete before anything
    else happens, and when they complete (none fails) the promise and the
    database at the end of the call are the same for every order of
    completion; only the order of the three lookups in the log differs. *)
Theorem lookups_order_irrelevant
    (f : Op -> bool) (o1 o2 : Order) (d : Database) (eventId userId : Z) :
  f OpFindUser = false ->
  f OpFindEvent = false ->
  f OpFindCheckIn = false ->
  let w1 := checkInToEvent (mkEnv f o1) eventId userId d in
  let w2 := checkInToEvent (mkEnv f o2) eventId userId d in
  promise w1 = promise w2 /\
  database w1 = database w2 /\
  (f OpTransaction = false ->
   exists rest,
     effects w1 =
       EffTransaction (List.length (txns d)) :: map EffLookup (completion o1) ++ rest /\
     effects w2 =
       EffTransaction (List.length (txns d)) :: map EffLookup (completion o2) ++ rest /\
     (forall op, ~ In (EffLookup op) rest)).
Proof.
  intros Hu He Hc w1 w2.
  assert (Ok : succeed (mkEnv f O012) [OpFindUser; OpFindEvent; OpFindCheckIn]).
  { intros op [<- | [<- | [<- | []]]]; assumption. }
  destruct (lookups_order_canonical (mkEnv f o1) (mkEnv f O012) d eventId userId
              (fun _ => eq_refl) eq_refl Ok) as (P1 & D1 & L1 & N1).
  destruct (lookups_order_canonical (mkEnv f o2) (mkEnv f O012) d eventId userId
              (fun _ => eq_refl) eq_refl Ok) as (P2 & D2 & L2 & _).
  fold w1 in P1, D1, L1. fold w2 in P2, D2, L2.
  split; [congruence|]. split; [congruence|].
  intros Ht. eexists. split; [apply L1; exact Ht|].
  split; [apply L2; exact Ht | exact N1].
Qed.

Lemma lookups_order_irrelevant_witness :
  let w1 := checkInToEvent (mkEnv no_faults O012) 5 42 hackathon in
  let w2 := checkInToEvent (mkEnv no_faults O210) 5 42 hackathon in
  promise w1 = promise w2 /\
  database w1 = database w2 /\
  (no_faults OpTransaction = false ->
   exists rest,
     effects w1 =
       EffTransaction (List.length (txns hackathon))
         :: map EffLookup (completion O012) ++ rest /\
     effects w2 =
       EffTransaction (List.length (txns hackathon))
         :: map EffLookup (completion O210) ++ rest /\
     (forall op, ~ In (EffLookup op) rest)).
Proof.
  apply (lookups_order_irrelevant no_faults O012 O210 hackathon 5 42); reflexivity.
Defined.

(** ** Deleting a user *)

(** C7: when the storage operations succeed, [deleteUserById] rejects with
    a [NotFoundError] exactly when no user has the id, and then changes
    nothing; for an existing user the caller receives
    [{success: true, message: null}] and the user is gone from the store with
    the tokens, applications, talks and check-ins that refer to it. *)
Theorem deleteUserById_contract (env : Env) (d : Database) (id : Z) :
  succeed env [OpFindUser; OpTransaction; OpDestroyUser; OpCommit] ->
  let w := deleteUserById env id d in
  ((exists msg, promise w = Rejected (NotFoundError msg)) <->
   find_user id (store d) = None) /\
  (find_user id (store d) = None -> database w = d) /\
  (forall user, find_user id (store d) = Some user ->
     promise w = Fulfilled (mkMsg true None) /\
     db w = delete_user_cascade id (store d) /\
     user_gone id (db w)).
Proof.
  intros Ok. destruct d as [s tx]; simpl.
  destruct (find_user id s) as [user|] eqn:Fu; run_flow_with Ok.
  - rewrite (find_user_id _ _ _ Fu).
    split; [split; [intros [msg H]; discriminate H | discriminate]|].
    split; [discriminate|].
    intros user' _. auto using delete_user_gone.
  - split; [split; eauto|].
    split; [reflexivity | discriminate].
Qed.

Lemma deleteUserById_contract_witness :
  let w := deleteUserById calm 42 hackathon in
  ((exists msg, promise w = Rejected (NotFoundError msg)) <->
   find_user 42 (store hackathon) = None) /\
  (find_user 42 (store hackathon) = None -> database w = hackathon) /\
  (forall user, find_user 42 (store hackathon) = Some user ->
     promise w = Fulfilled (mkMsg true None) /\
     db w = delete_user_cascade 42 (store hackathon) /\
     user_gone 42 (db w)).
Proof.
  apply (deleteUserById_contract calm hackathon 42).
  intros op _; reflexivity.
Defined.

(** ** Where the code settles the promise too early *)

(** C4 (defect of the code): in no call of [checkInToEvent] is the
    transaction closed when the promise is settled, and when the pair is
    already checked in the transaction is neither committed nor rolled back
    at all: it is still open when the call has ended. *)
Theorem checkIn_leaves_transaction_open :
  (forall env d eventId userId,
      closed_at_delivery (List.length (txns d)) (checkInToEvent env eventId userId d)
      = false) /\
  (let w1 := checkInToEvent calm 5 42 hackathon in
   let w2 := checkInToEvent calm 5 42 (database w1) in
   promise w2 =
     Fulfilled (mkMsg false (Some "a@b.com has already checked into Hackathon"%string)) /\
   txn_status 1 w2 = Some Open /\
   existsb (closes 1) (effects w2) = false).
Proof.
  split.
  - intros env [s tx] eventId userId. unfold closed_at_delivery.
    run_flow; reflexivity.
  - vm_compute. auto.
Qed.

(** C5 (defect of the code): [deleteUserById] resolves its promise before
    the delete has run and before the commit; when the delete then fails the
    caller has been told [{success: true}], the user is still there, and the
    transaction is committed, not rolled back. *)
Theorem deleteUserById_resolves_before_delete :
  effects (deleteUserById calm 42 hackathon) =
    [EffLookup OpFindUser; EffTransaction 0; EffDestroyCalled 42;
     EffResolve (mkMsg true None); EffDestroyed 42; EffCommit 0] /\
  (let w := deleteUserById (mkEnv (only OpDestroyUser) O012) 42 hackathon in
   promise w = Fulfilled (mkMsg true None) /\
   find_user 42 (db w) = Some alice /\
   txn_status 0 w = Some Committed) /\
  (forall env d id,
      closed_at_delivery (List.length (txns d)) (deleteUserById env id d) = false).
Proof.
  split; [reflexivity|]. split; [vm_compute; auto|].
  intros env [s tx] id. unfold closed_at_delivery.
  run_flow; reflexivity.
Qed.

(** C6 (defect of the code): on the fresh path the row is written inside
    the transaction, but the promise is resolved before the commit; when the
    commit fails the caller has still been told [{success: true}] although
    the transaction is rolled back and no row was added. *)
Theorem checkIn_resolves_before_commit :
  effects (checkInToEvent calm 5 42 hackathon) =
    [EffTransaction 0; EffLookup OpFindUser; EffLookup OpFindEvent;
     EffLookup OpFindCheckIn; EffCreate (CheckIn.mk 5 42) (Some 0%nat);
     EffResolve (mkMsg true (Some "a@b.com checked into Hackathon!"%string));
     EffCommit 0;
     EffResolve (mkMsg false (Some "a@b.com has already checked into Hackathon"%string))] /\
  (let w := checkInToEvent (mkEnv (only OpCommit) O012) 5 42 hackathon in
   promise w = Fulfilled (mkMsg true (Some "a@b.com checked into Hackathon!"%string)) /\
   count_check_ins 5 42 (db w) = 0%nat /\
   txn_status 0 w = Some RolledBack).
Proof.
  split; [reflexivity | vm_compute; auto].
Qed.

(** ** What the flows never do *)

(** Every run of [checkInToEvent], whatever the storage layer does. *)
Lemma checkIn_any_run (env : Env) (d : Database) (eventId userId : Z) :
  let w := checkInToEvent env eventId userId d in
  (txs w = txns d \/ exists tx, txs w = txns d ++ [tx]) /\
  (db w = store d \/
   (db w = insert_check_in (CheckIn.mk eventId userId) (store d) /\
    find_check_in eventId userId (store d) = None /\
    exists user event,
      find_user userId (store d) = Some user /\
      find_event eventId (store d) = Some event /\
      promise w = Fulfilled (mkMsg true (Some (checked_in_message user event))))) /\
  (forall op, promise w = Rejected (StorageError op) ->
     In op [OpFindUser; OpFindEvent; OpFindCheckIn; OpCreateCheckIn]).
Proof.
  destruct d as [s tx]; simpl. run_flow.
  all: split; [first [left; reflexivity | right; eexists; reflexivity]|].
  all: split;
    [first [left; reflexivity | right; repeat split; eauto]
    |intros op H; try discriminate H; injection H as <-; simpl; tauto].
Qed.

Lemma deleteUser_any_run (env : Env) (d : Database) (id : Z) :
  let w := deleteUserById env id d in
  (txs w = txns d \/ exists tx, txs w = txns d ++ [tx]) /\
  (db w = store d \/
   (db w = delete_user_cascade id (store d) /\
    promise w = Fulfilled (mkMsg true None))) /\
  (forall e, promise w = Rejected e ->
     e = NotFoundError "User does not exist" /\
     find_user id (store d) = None /\ database w = d) /\
  (promise w = Pending ->
     (faults env OpFindUser = true \/ faults env OpTransaction = true) /\
     database w = d).
Proof.
  destruct d as [s tx]; simpl. run_flow.
  all: repeat match goal with
         | H : find_user _ _ = Some _ |- _ =>
             rewrite (find_user_id _ _ _ H); clear H
         end.
  all: split; [first [left; reflexivity | right; eexists; reflexivity]|].
  all: split; [first [left; reflexivity | right; split; reflexivity]|].
  all: split; [intros e H; try discriminate H; injection H as <-; auto|].
  all: intros H; try discriminate H; auto.
Qed.




Lemma find_user_after_insert (id : Z) (row : CheckIn.t) (s : Store) :
  find_user id (insert_check_in row s) = find_user id s.
Proof. reflexivity. Qed.

Lemma find_other_pair_after_insert (e u e' u' : Z) (s : Store) :
  (e', u') <> (e, u) ->
  find_check_in e' u' (insert_check_in (CheckIn.mk e u) s) = find_check_in e' u' s.
Proof.
  intros Other. unfold find_check_in, insert_check_in; simpl.
  induction (check_ins s) as [|c l IH]; simpl.
  - destruct (is_pair e' u' (CheckIn.mk e u)) eqn:P; [|reflexivity].
    apply is_pair_inv in P; simpl in P. destruct P; subst. contradiction.
  - destruct (is_pair e' u' c); [reflexivity | exact IH].
Qed.

(** [checkInToEvent] changes the rows in one way only: it adds the row of
    its own pair, and only when the pair had none, the user and the event
    exist and the caller is told [success: true].  In every other run,
    whatever fails, the rows are those from before the call. *)
Theorem checkIn_changes_rows_only_on_success
    (env : Env) (d : Database) (eventId userId : Z) :
  let w := checkInToEvent env eventId userId d in
  db w = store d \/
  (db w = insert_check_in (CheckIn.mk eventId userId) (store d) /\
   find_check_in eventId userId (store d) = None /\
   exists user event,
     find_user userId (store d) = Some user /\
     find_event eventId (store d) = Some event /\
     promise w = Fulfilled (mkMsg true (Some (checked_in_message user event)))).
Proof.
  exact (proj1 (proj2 (checkIn_any_run env d eventId userId))).
Qed.

(** A failure of [transaction()], of [commit()] or of [rollback()] never
    reaches the caller of [checkInToEvent]: a storage error that rejects the
    promise comes from one of the three lookups or from the insert. *)
Theorem checkIn_rejects_only_early_failures
    (env : Env) (d : Database) (eventId userId : Z) (op : Op) :
  promise (checkInToEvent env eventId userId d) = Rejected (StorageError op) ->
  In op [OpFindUser; OpFindEvent; OpFindCheckIn; OpCreateCheckIn].
Proof.
  exact (proj2 (proj2 (checkIn_any_run env d eventId userId)) op).
Qed.

Lemma checkIn_rejects_only_early_failures_witness :
  In OpCreateCheckIn [OpFindUser; OpFindEvent; OpFindCheckIn; OpCreateCheckIn].
Proof.
  apply (checkIn_rejects_only_early_failures
           (mkEnv (only OpCreateCheckIn) O012) hackathon 5 42 OpCreateCheckIn).
  reflexivity.
Defined.

(** A call opens at most one transaction and leaves the transactions of
    earlier calls as they were. *)
Theorem transactions_only_appended :
  (forall env d eventId userId,
      let w := checkInToEvent env eventId userId d in
      txs w = txns d \/ exists tx, txs w = txns d ++ [tx]) /\
  (forall env d id,
      let w := deleteUserById env id d in
      txs w = txns d \/ exists tx, txs w = txns d ++ [tx]).
Proof.
  split.
  - intros env d eventId userId.
    exact (proj1 (checkIn_any_run env d eventId userId)).
  - intros env d id. exact (proj1 (deleteUser_any_run env d id)).
Qed.

Lemma checkIn_begin_failure_pending_witness :
  promise (checkInToEvent (mkEnv (only OpTransaction) O012) 5 42 hackathon) = Pending /\
  database (checkInToEvent (mkEnv (only OpTransaction) O012) 5 42 hackathon) = hackathon.
Proof.
  apply (checkIn_begin_failure_pending (mkEnv (only OpTransaction) O012) hackathon 5 42).
  reflexivity.
Defined.

(** The only rejection of [deleteUserById] is the [NotFoundError] of a
    missing user, and then nothing is changed: no failure of the storage layer
    ever rejects the promise. *)
Theorem deleteUser_rejects_only_not_found
    (env : Env) (d : Database) (id : Z) (e : Error) :
  promise (deleteUserById env id d) = Rejected e ->
  e = NotFoundError "User does not exist" /\
  find_user id (store d) = None /\
  database (deleteUserById env id d) = d.
Proof.
  exact (proj1 (proj2 (proj2 (deleteUser_any_run env d id))) e).
Qed.

Lemma deleteUser_rejects_only_not_found_witness :
  NotFoundError "User does not exist" = NotFoundError "User does not exist" /\
  find_user 43 (store hackathon) = None /\
  database (deleteUserById calm 43 hackathon) = hackathon.
Proof.
  apply (deleteUser_rejects_only_not_found calm hackathon 43).
  reflexivity.
Defined.

(** When the lookup of the user or the opening of the transaction fails,
    the promise of [deleteUserById] is never settled (both are awaited
    outside the [try]), and that is the only way for it to stay pending;
    nothing is changed then. *)
Theorem deleteUser_pending_on_early_failure (env : Env) (d : Database) (id : Z) :
  let w := deleteUserById env id d in
  (promise w = Pending ->
   (faults env OpFindUser = true \/ faults env OpTransaction = true) /\ database w = d) /\
  (faults env OpFindUser = true -> promise w = Pending).
Proof.
  split.
  - exact (proj2 (proj2 (proj2 (deleteUser_any_run env d id)))).
  - intros Hf. destruct d as [s tx]. run_flow; reflexivity.
Qed.

(** ** How the calls compose *)





(** Check-ins of different pairs do not get in each other's way: after a
    first check-in, a fresh pair is checked in as well, and the rows gain the
    two pairs in the order of the calls. *)
Theorem checkIn_pairs_independent
    (env1 env2 : Env) (d : Database) (e1 u1 e2 u2 : Z)
    (user1 user2 : User.t) (event1 event2 : Event.t) :
  succeed env1 check_in_ops ->
  succeed env2 check_in_ops ->
  (e2, u2) <> (e1, u1) ->
  find_user u1 (store d) = Some user1 ->
  find_event e1 (store d) = Some event1 ->
  find_check_in e1 u1 (store d) = None ->
  find_user u2 (store d) = Some user2 ->
  find_event e2 (store d) = Some event2 ->
  find_check_in e2 u2 (store d) = None ->
  let w1 := checkInToEvent env1 e1 u1 d in
  let w2 := checkInToEvent env2 e2 u2 (database w1) in
  promise w2 = Fulfilled (mkMsg true (Some (checked_in_message user2 event2))) /\
  check_ins (db w2) = check_ins (store d) ++ [CheckIn.mk e1 u1; CheckIn.mk e2 u2].
Proof.
  intros Ok1 Ok2 Other Fu1 Fe1 Fc1 Fu2 Fe2 Fc2 w1 w2.
  destruct (checkIn_fresh_run env1 d e1 u1 user1 event1 Ok1 Fu1 Fe1 Fc1) as (_ & S1 & _).
  fold w1 in S1.
  destruct (checkIn_fresh_run env2 (database w1) e2 u2 user2 event2 Ok2) as (P2 & S2 & _).
  - simpl. rewrite S1. exact Fu2.
  - simpl. rewrite S1. exact Fe2.
  - simpl. rewrite S1. rewrite find_other_pair_after_insert; assumption.
  - fold w2 in P2, S2. split; [exact P2|].
    rewrite S2. simpl. rewrite S1. simpl. now rewrite <- app_assoc.
Qed.

Lemma checkIn_pairs_independent_witness :
  let w1 := checkInToEvent calm 5 42 (mkDatabase three_users []) in
  let w2 := checkInToEvent calm 5 7 (database w1) in
  promise w2 = Fulfilled (mkMsg true (Some "b@c.org checked into Hackathon!"%string)) /\
  check_ins (db w2) = [CheckIn.mk 5 42; CheckIn.mk 5 7].
Proof.
  apply (checkIn_pairs_independent calm calm (mkDatabase three_users []) 5 42 5 7
           alice bob hack hack).
  - intros op _; reflexivity.
  - intros op _; reflexivity.
  - discriminate.
  - reflexivity.
  - reflexivity.
  - reflexivity.
  - reflexivity.
  - reflexivity.
  - reflexivity.
Defined.

(** ** The routes *)

(** The check-in route answers [BadRequestError] exactly when the user id
    or the event id is [NaN] or [0] (a negative id passes); the user id is
    looked at first, and the controller is not called: the database is as it
    was. *)
Theorem route_check_in_bad_request
    (env : Env) (user_id event_id : option Z) (d : Database) :
  let r := Routes.checkUserIntoEvent env user_id event_id d in
  ((exists msg, fst r = Failed (BadRequestError msg)) <->
   truthy user_id && truthy event_id = false) /\
  (truthy user_id = false ->
   r = (Failed (BadRequestError "You must supply a valid user id"), d)) /\
  (truthy user_id = true -> truthy event_id = false ->
   r = (Failed (BadRequestError "You must supply a valid event id"), d)).
Proof.
  unfold Routes.checkUserIntoEvent.
  destruct (truthy user_id), (truthy event_id); simpl.
  - repeat split; try discriminate.
    intros [msg H].
    destruct (promise (checkInToEvent env (number event_id) (number user_id) d));
      discriminate H.
  - repeat split; eauto; discriminate.
  - repeat split; eauto; discriminate.
  - repeat split; eauto; discriminate.
Qed.

(** Through the check-in route the rows change only when the answer is
    [success: true], and then by the one row of the pair. *)
Theorem route_check_in_writes_only_on_success
    (env : Env) (user_id event_id : option Z) (d : Database) :
  let r := Routes.checkUserIntoEvent env user_id event_id d in
  store (snd r) = store d \/
  ((exists msg, fst r = Done (mkMsg true (Some msg))) /\
   store (snd r) =
     insert_check_in (CheckIn.mk (number event_id) (number user_id)) (store d)).
Proof.
  unfold Routes.checkUserIntoEvent.
  destruct (truthy user_id); simpl; [|left; reflexivity].
  destruct (truthy event_id); simpl; [|left; reflexivity].
  destruct (checkIn_any_run env d (number event_id) (number user_id))
    as (_ & [S | (S & _ & user & event & _ & _ & P)] & _).
  - left; exact S.
  - right. rewrite P. simpl. eauto.
Qed.

(** The delete route answers [BadRequestError] when the id is [NaN] or
    [0]; every error it answers with is that one or the [NotFoundError] of a
    missing user, and leaves the database as it was; the rows change only when
    the answer is [success: true]. *)
Theorem route_delete_answers
    (env : Env) (user_id : option Z) (d : Database) :
  let r := Routes.deleteUserById env user_id d in
  (truthy user_id = false ->
   r = (Failed (BadRequestError "You must supply a valid user id"), d)) /\
  (forall f, fst r = Failed f ->
     snd r = d /\
     (f = BadRequestError "You must supply a valid user id" \/
      f = Raised (NotFoundError "User does not exist"))) /\
  (store (snd r) = store d \/
   (fst r = Done (mkMsg true None) /\
    store (snd r) = delete_user_cascade (number user_id) (store d))).
Proof.
  unfold Routes.deleteUserById.
  destruct (truthy user_id); simpl.
  - destruct (deleteUser_any_run env d (number user_id)) as (_ & S & R & _).
    split; [discriminate|]. split.
    + intros f H.
      destruct (promise (deleteUserById env (number user_id) d)) eqn:P;
        try discriminate H.
      destruct (R e eq_refl) as (-> & _ & D). injection H as <-. auto.
    + destruct S as [S | [S P]]; [left; exact S | right].
      rewrite P. auto.
  - split; [reflexivity|]. split; [|left; reflexivity].
    intros f H. injection H as <-. auto.
Qed.

(** ** Pages of users *)

Lemma firstn_plus {A : Type} (a b : nat) (l : list A) :
  firstn (a + b) l = firstn a l ++ firstn b (skipn a l).
Proof.
  revert l. induction a as [|a IH]; intros l; simpl; [reflexivity|].
  destruct l as [|x l]; simpl.
  - now rewrite firstn_nil.
  - now rewrite IH.
Qed.

Lemma chunks_concat {A : Type} (n m : nat) (l : list A) :
  flat_map (fun k => firstn n (skipn (k * n) l)) (seq 0 m) = firstn (m * n) l.
Proof.
  induction m as [|m IH]; [reflexivity|].
  rewrite seq_S, flat_map_app, IH. simpl.
  rewrite app_nil_r, (Nat.add_comm n (m * n)). symmetry. apply firstn_plus.
Qed.

Lemma ceil_quotient_bounds (c l : Z) :
  0 < l -> (- ((- c) / l) - 1) * l < c <= - ((- c) / l) * l.
Proof.
  intros Hl.
  pose proof (Z.div_mod (- c) l ltac:(lia)).
  pose proof (Z.mod_pos_bound (- c) l Hl). nia.
Qed.

(** A page that was served, read back. *)
Lemma getUserPage_done (qenv : QueryEnv) (pageNumber limit : option Z) (s : Store)
    (p : UserPage) :
  getUserPage qenv pageNumber limit s = Done p ->
  p = mkPage (default 1 pageNumber) (default 10 limit)
        (ceil_quotient (getUserCount s) (default 10 limit)) (getUserCount s)
        (getUsers (default 10 limit)
           (page_offset (default 1 pageNumber) (default 10 limit)) s).
Proof.
  unfold getUserPage.
  destruct (count_first qenv), (query_faults qenv QFindAllUsers),
    (query_faults qenv QCountUsers); simpl; intros H; try discriminate H;
    now injection H as <-.
Qed.

(** A page never holds more users than its size. *)
Theorem page_holds_at_most_page_size
    (qenv : QueryEnv) (pageNumber limit : option Z) (s : Store) (p : UserPage) :
  getUserPage qenv pageNumber limit s = Done p ->
  0 <= pageSize p ->
  Z.of_nat (List.length (page_users p)) <= pageSize p.
Proof.
  intros H Hl. apply getUserPage_done in H. subst p. simpl in *.
  unfold getUsers. pose proof (firstn_le_length (Z.to_nat (default 10 limit))
    (skipn (Z.to_nat (page_offset (default 1 pageNumber) (default 10 limit))) (users s))).
  lia.
Qed.

Lemma page_holds_at_most_page_size_witness :
  Z.of_nat (List.length [alice; bob]) <= 2.
Proof.
  apply (page_holds_at_most_page_size quiet (Some 1) (Some 2) three_users
           (mkPage 1 2 (Int 2) 3 [alice; bob])).
  - reflexivity.
  - simpl; lia.
Defined.

(** With a positive page size, [totalPages] is the least number of pages
    of that size that hold all users, and [totalUsers] is their number. *)
Theorem total_pages_is_least_cover
    (qenv : QueryEnv) (pageNumber limit : option Z) (s : Store) (p : UserPage) :
  getUserPage qenv pageNumber limit s = Done p ->
  0 < pageSize p ->
  totalUsers p = Z.of_nat (List.length (users s)) /\
  exists T, totalPages p = Int T /\
            (T - 1) * pageSize p < totalUsers p <= T * pageSize p.
Proof.
  intros H Hl. apply getUserPage_done in H. subst p. simpl in *.
  split; [reflexivity|].
  unfold ceil_quotient. destruct (default 10 limit =? 0) eqn:Z0; [lia|].
  eexists. split; [reflexivity|]. now apply ceil_quotient_bounds.
Qed.

Lemma total_pages_is_least_cover_witness :
  3 = Z.of_nat (List.length (users three_users)) /\
  exists T, Int 2 = Int T /\ (T - 1) * 2 < 3 <= T * 2.
Proof.
  apply (total_pages_is_least_cover quiet (Some 1) (Some 2) three_users
           (mkPage 1 2 (Int 2) 3 [alice; bob])).
  - reflexivity.
  - simpl; lia.
Defined.

Lemma page_rows (qenv : QueryEnv) (k limit : Z) (s : Store) :
  query_faults qenv QFindAllUsers = false ->
  query_faults qenv QCountUsers = false ->
  rows_of (getUserPage qenv (Some k) (Some limit) s) =
  getUsers limit (page_offset k limit) s.
Proof.
  intros Hr Hc. unfold getUserPage. rewrite Hr, Hc.
  destruct (count_first qenv); reflexivity.
Qed.

(** With a positive page size, the pages [1 .. totalPages], one after the
    other, are the users of the table, each once and in the order of the
    table. *)
Theorem pages_cover_all_users
    (qenv : QueryEnv) (limit : Z) (s : Store) (p : UserPage) (T : Z) :
  query_faults qenv QFindAllUsers = false ->
  0 < limit ->
  getUserPage qenv (Some 1) (Some limit) s = Done p ->
  totalPages p = Int T ->
  flat_map (fun k => rows_of (getUserPage qenv (Some (Z.of_nat k)) (Some limit) s))
    (seq 1 (Z.to_nat T)) = users s.
Proof.
  intros Hr Hl H HT.
  assert (Hc : query_faults qenv QCountUsers = false).
  { unfold getUserPage in H. destruct (query_faults qenv QCountUsers); [|reflexivity].
    rewrite Hr in H. destruct (count_first qenv); discriminate H. }
  apply getUserPage_done in H. subst p. simpl in HT.
  unfold ceil_quotient in HT. destruct (limit =? 0) eqn:Z0; [lia|].
  injection HT as HT.
  pose proof (ceil_quotient_bounds (getUserCount s) limit Hl) as B. rewrite HT in B.
  rewrite <- seq_shift, flat_map_concat_map, map_map, <- flat_map_concat_map.
  rewrite (flat_map_ext _
             (fun k => firstn (Z.to_nat limit) (skipn (k * Z.to_nat limit) (users s)))).
  - rewrite chunks_concat. apply firstn_all2. unfold getUserCount in B. nia.
  - intros k. rewrite (page_rows qenv _ limit s Hr Hc).
    unfold getUsers, page_offset.
    replace (Z.of_nat (S k) <? 1) with false by (symmetry; apply Z.ltb_ge; lia).
    f_equal. f_equal. nia.
Qed.

Lemma pages_cover_all_users_witness :
  flat_map (fun k => rows_of (getUserPage quiet (Some (Z.of_nat k)) (Some 2) three_users))
    (seq 1 (Z.to_nat 2)) = users three_users.
Proof.
  apply (pages_cover_all_users quiet 2 three_users (mkPage 1 2 (Int 2) 3 [alice; bob]) 2).
  - reflexivity.
  - lia.
  - reflexivity.
  - reflexivity.
Defined.

(** With a positive page size, every page before the last is full and
    every page after the last is empty. *)
Theorem pages_full_before_last_empty_after
    (qenv : QueryEnv) (pageNumber limit : option Z) (s : Store) (p : UserPage) (T : Z) :
  getUserPage qenv pageNumber limit s = Done p ->
  0 < pageSize p ->
  totalPages p = Int T ->
  (1 <= page p < T -> Z.of_nat (List.length (page_users p)) = pageSize p) /\
  (T < page p -> page_users p = []).
Proof.
  intros H Hl HT. apply getUserPage_done in H. subst p. simpl in *.
  unfold ceil_quotient in HT. destruct (default 10 limit =? 0) eqn:Z0; [lia|].
  injection HT as HT.
  pose proof (ceil_quotient_bounds (getUserCount s) (default 10 limit) Hl) as B.
  rewrite HT in B. unfold getUserCount in B.
  unfold getUsers, page_offset. split.
  - intros R. replace (default 1 pageNumber <? 1) with false
      by (symmetry; apply Z.ltb_ge; lia).
    rewrite length_firstn, length_skipn. nia.
  - intros R. replace (default 1 pageNumber <? 1) with false
      by (symmetry; apply Z.ltb_ge; nia).
    rewrite skipn_all2; [apply firstn_nil | nia].
Qed.

Lemma pages_full_before_last_empty_after_witness :
  (1 <= 1 < 2 -> Z.of_nat (List.length [alice; bob]) = 2) /\
  (2 < 1 -> [alice; bob] = []).
Proof.
  apply (pages_full_before_last_empty_after quiet (Some 1) (Some 2) three_users
           (mkPage 1 2 (Int 2) 3 [alice; bob]) 2).
  - reflexivity.
  - simpl; lia.
  - reflexivity.
Defined.

(** A page number below [1] serves the rows of page [1]. *)
Theorem page_below_one_is_first_page
    (qenv : QueryEnv) (pageNumber : Z) (limit : option Z) (s : Store) :
  pageNumber < 1 ->
  rows_of (getUserPage qenv (Some pageNumber) limit s) =
  rows_of (getUserPage qenv (Some 1) limit s).
Proof.
  intros H. unfold getUserPage, page_offset; simpl.
  replace (pageNumber <? 1) with true by (symmetry; apply Z.ltb_lt; exact H).
  replace ((1 - 1) * default 10 limit) with 0 by lia.
  destruct (count_first qenv), (query_faults qenv QFindAllUsers),
    (query_faults qenv QCountUsers); reflexivity.
Qed.

Lemma page_below_one_is_first_page_witness :
  rows_of (getUserPage quiet (Some (-3)) (Some 2) three_users) =
  rows_of (getUserPage quiet (Some 1) (Some 2) three_users).
Proof.
  apply (page_below_one_is_first_page quiet (-3) (Some 2) three_users). lia.
Defined.

(** The page route never asks the controller for a page below [1] nor for
    pages of size [0]: a page that is [NaN], [0] or negative becomes [1], a
    limit that is [NaN] or [0] becomes the default [10]; any other value,
    a negative limit included, is passed on as it is. *)
Theorem route_page_arguments
    (qenv : QueryEnv) (page_arg limit_arg : option Z) (s : Store) (p : UserPage) :
  Routes.getUserPage qenv page_arg limit_arg s = Done p ->
  1 <= page p /\
  pageSize p <> 0 /\
  (page p = if truthy page_arg && (1 <=? number page_arg) then number page_arg else 1) /\
  (pageSize p = if truthy limit_arg then number limit_arg else 10).
Proof.
  unfold Routes.getUserPage. intros H. apply getUserPage_done in H. subst p; simpl.
  destruct page_arg as [pg|], limit_arg as [lm|]; simpl;
    repeat match goal with
           | |- context [?a =? ?b] => destruct (Z.eqb_spec a b); simpl
           | |- context [?a <? ?b] => destruct (Z.ltb_spec a b); simpl
           | |- context [?a <=? ?b] => destruct (Z.leb_spec a b); simpl
           end; repeat split; try lia.
Qed.

Lemma route_page_arguments_witness :
  1 <= 1 /\ 10 <> 0 /\
  (1 = if truthy (Some 0) && (1 <=? number (Some 0)) then number (Some 0) else 1) /\
  (10 = if truthy None then number None else 10).
Proof.
  apply (route_page_arguments quiet (Some 0) None three_users
           (mkPage 1 10 (Int 1) 3 [alice; bob; carol])).
  reflexivity.
Defined.

(** ** One user by email, by id, or by both *)

Lemma find_pointwise {A : Type} (f g : A -> bool) (l : list A) :
  (forall x, f x = g x) -> find f l = find g l.
Proof.
  intros E. induction l as [|x l IH]; simpl; [reflexivity|].
  rewrite E, IH. reflexivity.
Qed.

(** When the queries succeed and an email or an id is given, the route of
    a single user answers with the first user of the table that has every
    value given, and with the [NotFoundError] when there is none: with both
    given, a user that has the id but another email is not found. *)
Theorem single_user_is_first_match
    (env : Env) (qenv : QueryEnv) (email : option string) (userId : option Z)
    (d : Database) :
  faults env OpFindUser = false ->
  query_faults qenv QFindByEmail = false ->
  query_faults qenv QFindByIdAndEmail = false ->
  truthy_string email || truthy userId = true ->
  Routes.getSingleUser env qenv email userId d =
  match find (matches_criteria email userId) (users (store d)) with
  | Some user => Done user
  | None => Failed (Raised (NotFoundError "The requested user does not exist"))
  end.
Proof.
  intros Hf He Hb Given.
  unfold Routes.getSingleUser, getUserByEmail, getUserByIdAndEmail, awaited_query,
    getUserById, findOne, find_user, matches_criteria.
  rewrite Hf, He, Hb.
  destruct (truthy_string email), (truthy userId); simpl in *; try discriminate Given.
  - reflexivity.
  - erewrite find_pointwise; [reflexivity|]. intros x; simpl. now rewrite andb_true_r.
  - reflexivity.
Qed.

Lemma single_user_is_first_match_witness :
  Routes.getSingleUser calm quiet (Some "b@c.org"%string) (Some 42)
    (mkDatabase three_users []) =
  match find (matches_criteria (Some "b@c.org"%string) (Some 42))
          (users (store (mkDatabase three_users []))) with
  | Some user => Done user
  | None => Failed (Raised (NotFoundError "The requested user does not exist"))
  end.
Proof.
  apply (single_user_is_first_match calm quiet (Some "b@c.org"%string) (Some 42)
           (mkDatabase three_users [])); reflexivity.
Defined.

(** The route of a single user answers [BadRequestError] exactly when it
    is given neither an email (it is [null] or empty) nor an id (it is [NaN]
    or [0]); no query is needed for that answer. *)
Theorem single_user_bad_request_iff
    (env : Env) (qenv : QueryEnv) (email : option string) (userId : option Z)
    (d : Database) :
  (exists msg, Routes.getSingleUser env qenv email userId d
               = Failed (BadRequestError msg)) <->
  truthy_string email || truthy userId = false.
Proof.
  unfold Routes.getSingleUser, getUserByEmail, getUserByIdAndEmail, awaited_query,
    getUserById, findOne, throw.
  destruct (truthy_string email), (truthy userId); simpl.
  all: repeat match goal with
         | |- context [if ?b then _ else _] => destruct b; simpl
         | |- context [match find ?f ?l with _ => _ end] => destruct (find f l); simpl
         | |- context [match find_user ?i ?s with _ => _ end] =>
             destruct (find_user i s); simpl
         end.
  all: split; [intros [msg H]; try discriminate H; reflexivity
              |intros H; try discriminate H; eauto].
Qed.

(** ** More on what is kept and what is found again *)

(** [deleteUserById] leaves the events alone and keeps every user with
    another id, every token of another user and every talk of another
    speaker, whatever the storage layer does. *)
Theorem deleteUser_keeps_other_rows (env : Env) (d : Database) (id : Z) :
  let w := deleteUserById env id d in
  events (db w) = events (store d) /\
  (forall u, In u (users (store d)) -> User.id u <> id -> In u (users (db w))) /\
  (forall t, In t (tokens (store d)) -> Token.user_id t <> id -> In t (tokens (db w))) /\
  (forall t, In t (talks (store d)) -> Talk.speaker_id t <> id -> In t (talks (db w))).
Proof.
  destruct (deleteUser_any_run env d id) as (_ & [S | [S _]] & _); simpl; rewrite S.
  - auto.
  - unfold delete_user_cascade, keep; simpl.
    repeat split; intros x Hin Hid; apply filter_In;
      (split; [exact Hin | apply negb_true_iff, Z.eqb_neq; exact Hid]).
Qed.



(** ** Where the check-in falls short of its own guard *)

(** C8 (defect of the code): the transaction is opened outside the [try]
    (line 194).  When [sequelize.transaction()] fails, the error is raised
    inside [checkInToEvent] before any commit, and yet [reject] is never
    called: the promise of the call stays pending and the caller never learns
    of the error. *)
Theorem checkIn_transaction_failure_not_rethrown :
  forall (o : Order) (d : Database) (eventId userId : Z),
    let w := checkInToEvent (mkEnv (only OpTransaction) o) eventId userId d in
    In (EffRaise (StorageError OpTransaction)) (before_commit (effects w)) /\
    promise w = Pending /\
    (forall err, ~ In (EffReject err) (effects w)) /\
    (forall t, ~ In (EffRollback t) (effects w)).
Proof.
  intros o d eventId userId.
  pose proof (eq_refl : faults (mkEnv (only OpTransaction) o) OpTransaction = true) as Ht.
  generalize dependent (mkEnv (only OpTransaction) o). intros env Ht.
  destruct d as [s tx]. run_flow.
  repeat split; auto.
  - intros err H; repeat (destruct H as [H | H]; try discriminate H); exact H.
  - intros t H; repeat (destruct H as [H | H]; try discriminate H); exact H.
Qed.

(** C2 (defect of the code): the guard against a second row is a lookup
    made before the insert, with [await]s in between, and the promise is
    resolved before the commit.  A second call for the same pair that runs
    while the first waits for its insert, or that is made when the first
    result is delivered and runs while the first waits for its commit, finds
    no check-in: both callers are told [success: true] and the pair has two
    rows. *)
Theorem checkIn_overlapping_calls_duplicate :
  (let w := checkInToEvent_meanwhile calm (during AtCreate (checkInToEvent calm 5 42))
              5 42 hackathon in
   count_check_ins 5 42 (db w) = 2%nat /\
   List.length (filter told_success (effects w)) = 2%nat /\
   ~ at_most_one_check_in (db w)) /\
  (let w := checkInToEvent_meanwhile calm (during AtCommit (checkInToEvent calm 5 42))
              5 42 hackathon in
   count_check_ins 5 42 (db w) = 2%nat /\
   effects w =
     [EffTransaction 0; EffLookup OpFindUser; EffLookup OpFindEvent;
      EffLookup OpFindCheckIn; EffCreate (CheckIn.mk 5 42) (Some 0%nat);
      EffResolve (mkMsg true (Some "a@b.com checked into Hackathon!"%string));
      EffTransaction 1; EffLookup OpFindUser; EffLookup OpFindEvent;
      EffLookup OpFindCheckIn; EffCreate (CheckIn.mk 5 42) (Some 1%nat);
      EffResolve (mkMsg true (Some "a@b.com checked into Hackathon!"%string));
      EffCommit 1;
      EffResolve (mkMsg false (Some "a@b.com has already checked into Hackathon"%string));
      EffCommit 0;
      EffResolve (mkMsg false (Some "a@b.com has already checked into Hackathon"%string))] /\
   ~ at_most_one_check_in (db w)) /\
  (forall env eventId userId d,
      checkInToEvent_meanwhile env nothing_else eventId userId d =
      checkInToEvent env eventId userId d).
Proof.
  split; [|split].
  - cbv zeta. split; [reflexivity|]. split; [reflexivity|].
    intros Inv. specialize (Inv 5 42). vm_compute in Inv. lia.
  - cbv zeta. split; [reflexivity|]. split; [reflexivity|].
    intros Inv. specialize (Inv 5 42). vm_compute in Inv. lia.
  - reflexivity.
Qed.
